(** * product-in-perspective: [main.py]

    The repository is one Python script.  It reads [example.jpg] with
    OpenCV, computes an aspect-ratio height that it then leaves alone,
    resizes the image to width 600 at its original height, reads
    [squirrel.jpg], shows the resized image in a window titled "Resized"
    and waits for a key.

    The statements of the script after its two imports (lines 12 to 21)
    are embedded one by one in a monad that threads the world the script
    runs in (working directory, display, pending key events, open
    windows, a log of the input/output performed) and that can stop with
    a Python exception or hang in [cv2.waitKey(0)].  The imports are
    taken to succeed and memory to suffice.

    OpenCV itself is not part of the repository.  Its four entry points are
    modelled in [Module cv2] from their documented behaviour.  What a
    codec finds in a file (the header, the pixels) and the resampling
    kernel stay parameters of the development; what OpenCV does around
    them (size limits, allocation, orientation, argument checks) is
    written out. *)

From Stdlib Require Import ZArith List Lia.
From Stdlib Require Import PrimFloat Uint63.
From stdpp Require Import base option gmap strings list.

Local Open Scope string_scope.
Local Open Scope list_scope.
Local Open Scope Z_scope.

(** ** Python values the script handles *)

(** A NumPy array as OpenCV hands it out: a matrix of [rows] by [cols]
    elements of [channels] unsigned 8-bit samples each, the samples dense
    in row-major order. *)
Record ndarray : Type := Ndarray {
  rows : Z;
  cols : Z;
  channels : Z;
  samples : list Z
}.

(** [a.shape]: a one-channel matrix comes out of OpenCV as a
    two-dimensional array, any other as [(rows, cols, channels)]. *)
Definition shape (a : ndarray) : list Z :=
  if channels a =? 1 then [rows a; cols a]
  else [rows a; cols a; channels a].

(** [cv::Mat::empty()] / [cv::Size::empty()]: no rows or no columns. *)
Definition is_empty (a : ndarray) : bool := (rows a <=? 0) || (cols a <=? 0).

(** The sample of channel [c] at row [y] and column [x]. *)
Definition sample_at (a : ndarray) (y x c : Z) : Z :=
  nth (Z.to_nat ((y * cols a + x) * channels a + c)) (samples a) 0.

(** The samples of a freshly allocated [h] by [w] matrix of [c] channels,
    filled element by element. *)
Definition tabulate (h w c : Z) (f : Z -> Z -> Z -> Z) : list Z :=
  y ← seqZ 0 h; x ← seqZ 0 w; k ← seqZ 0 c; [f y x k].

(** An array holds exactly one sample per row, column and channel. *)
Definition dense (a : ndarray) : Prop :=
  length (samples a)
  = (Z.to_nat (rows a) * Z.to_nat (cols a) * Z.to_nat (channels a))%nat.

Inductive value : Type :=
| PyNone
| PyArray (a : ndarray).

(** The exceptions that the statements of the script can raise.
    [cv2_error] is [cv2.error], the one exception class of the binding. *)
Inductive exn : Type :=
| AttributeError
| IndexError
| ZeroDivisionError
| cv2_error.

(** ** The world of a run *)

Inductive event : Type :=
| EvImread (path : string)
| EvImshow (title : string) (img : ndarray)
| EvKey (code : Z).

Record world : Type := World {
  files : gmap string (list Byte.byte);  (* the working directory *)
  display : bool;                        (* a windowing surface is there *)
  keys : list Z;                         (* key presses still to come *)
  windows : gmap string ndarray;         (* HighGUI windows, by title *)
  trace : list event;                    (* input/output done so far *)
  argv : list string;                    (* sys.argv, never read *)
  environ : gmap string string           (* os.environ, never read *)
}.

Definition log (e : event) (w : world) : world :=
  {| files := files w; display := display w; keys := keys w;
     windows := windows w; trace := trace w ++ [e];
     argv := argv w; environ := environ w |}.

Definition put_window (title : string) (img : ndarray) (w : world) : world :=
  {| files := files w; display := display w; keys := keys w;
     windows := <[title := img]> (windows w); trace := trace w;
     argv := argv w; environ := environ w |}.

Definition set_keys (ks : list Z) (w : world) : world :=
  {| files := files w; display := display w; keys := ks;
     windows := windows w; trace := trace w;
     argv := argv w; environ := environ w |}.

(** ** The monad of statements *)

Inductive outcome (A : Type) : Type :=
| Done (a : A) (w : world)         (* ran to the end *)
| Raised (e : exn) (w : world)     (* uncaught exception *)
| Blocked (w : world).             (* waiting for a key that never comes *)

Arguments Done {A} a w.
Arguments Raised {A} e w.
Arguments Blocked {A} w.

Definition M (A : Type) : Type := world -> outcome A.

Definition raise {A : Type} (e : exn) : M A := fun w => Raised e w.

#[export] Instance M_ret : MRet M := fun A a w => Done a w.

#[export] Instance M_bind : MBind M := fun A B k c w =>
  match c w with
  | Done a w' => k a w'
  | Raised e w' => Raised e w'
  | Blocked w' => Blocked w'
  end.

(** The world an outcome stops in. *)
Definition final {A : Type} (o : outcome A) : world :=
  match o with
  | Done _ w | Raised _ w | Blocked w => w
  end.

(** ** Python arithmetic and attribute access *)

(** [float(z)] for an array dimension.  Dimensions of arrays that OpenCV
    makes are C ints, far inside the range (below 2^53) where the
    conversion is exact. *)
Definition float_of_Z (z : Z) : float :=
  if z <? 0 then PrimFloat.opp (PrimFloat.of_uint63 (Uint63.of_Z (- z)))
  else PrimFloat.of_uint63 (Uint63.of_Z z).

(** [a / b] on ints: true division, [ZeroDivisionError] on [b = 0].  On
    the same range the quotient of the two conversions, rounded once, is
    Python's correctly rounded quotient. *)
Definition truediv (a b : Z) : M float :=
  if b =? 0 then raise ZeroDivisionError
  else mret (PrimFloat.div (float_of_Z a) (float_of_Z b)).

(** [i * x] for an int and a float. *)
Definition mul_int_float (i : Z) (x : float) : float :=
  PrimFloat.mul (float_of_Z i) x.

(** [v.shape[i]]: [None] has no attribute [shape]. *)
Definition shape_item (v : value) (i : nat) : M Z :=
  match v with
  | PyNone => raise AttributeError
  | PyArray a =>
      match shape a !! i with
      | Some n => mret n
      | None => raise IndexError
      end
  end.

(** ** OpenCV *)

(** What a codec reads in the header of an image file: the size of the
    image and its EXIF orientation tag (1 when the file has none). *)
Record header : Type := Header {
  hdr_height : Z;
  hdr_width : Z;
  hdr_orientation : Z
}.

Module cv2.

(** The limits [imread] puts on the size a header announces (the
    library's defaults). *)
Definition max_image_width : Z := 2 ^ 20.
Definition max_image_height : Z := 2 ^ 20.
Definition max_image_pixels : Z := 2 ^ 30.

Definition size_ok (h : header) : bool :=
  (0 <? hdr_width h) && (hdr_width h <=? max_image_width) &&
  (0 <? hdr_height h) && (hdr_height h <=? max_image_height) &&
  (hdr_width h * hdr_height h <=? max_image_pixels).

(** [cv::flip] about the vertical axis, about the horizontal axis, and
    [cv::transpose]. *)
Definition flip_h (a : ndarray) : ndarray :=
  {| rows := rows a; cols := cols a; channels := channels a;
     samples := tabulate (rows a) (cols a) (channels a)
                  (fun y x c => sample_at a y (cols a - 1 - x) c) |}.

Definition flip_v (a : ndarray) : ndarray :=
  {| rows := rows a; cols := cols a; channels := channels a;
     samples := tabulate (rows a) (cols a) (channels a)
                  (fun y x c => sample_at a (rows a - 1 - y) x c) |}.

Definition transpose (a : ndarray) : ndarray :=
  {| rows := cols a; cols := rows a; channels := channels a;
     samples := tabulate (cols a) (rows a) (channels a)
                  (fun y x c => sample_at a x y c) |}.

(** Orientation tags 5 to 8 turn the image on its side. *)
Definition transposes (o : Z) : bool := (5 <=? o) && (o <=? 8).

Definition exif_flip (o : Z) (a : ndarray) : ndarray :=
  if (o =? 2) || (o =? 6) then flip_h a
  else if (o =? 3) || (o =? 7) then flip_v (flip_h a)
  else if (o =? 4) || (o =? 8) then flip_v a
  else a.

(** What [imread] does to the decoded matrix for orientation tag [o]. *)
Definition exif_transform (o : Z) (a : ndarray) : ndarray :=
  exif_flip o (if transposes o then transpose a else a).

(** What the binding accepts where the library takes a C [int]. *)
Definition fits_int (z : Z) : bool := (- 2 ^ 31 <=? z) && (z <? 2 ^ 31).

Section Library.

(** The codec that recognises a file, if any does: the header it reads,
    and the pixels it then decodes (under [imread]'s default flag, three
    8-bit channels whatever the file encodes), by row, column and
    channel. *)
Variable read_header : list Byte.byte -> option header.
Variable read_data : list Byte.byte -> option (Z -> Z -> Z -> Z).

(** The resampling kernel behind [resize] (bilinear by default): source,
    destination width, destination height, to the sample at a
    destination row, column and channel. *)
Variable interpolate : ndarray -> Z -> Z -> Z -> Z -> Z -> Z.

(** [imread] refuses, with an exception, a file whose header announces a
    size outside the limits. *)
Definition refused (fs : gmap string (list Byte.byte)) (path : string) : bool :=
  match fs !! path with
  | None => false
  | Some bytes =>
      match read_header bytes with
      | None => false
      | Some h => negb (size_ok h)
      end
  end.

(** What [imread] returns for [path] when it returns: [None] when the
    file cannot be opened, when no codec reads its header or when its
    pixels cannot be decoded; else the matrix allocated at the header's
    size, filled by the codec and turned as the orientation tag says.  An
    empty matrix becomes [None] in the binding as well. *)
Definition decoded (fs : gmap string (list Byte.byte)) (path : string) : value :=
  match fs !! path with
  | None => PyNone
  | Some bytes =>
      match read_header bytes with
      | None => PyNone
      | Some h =>
          match read_data bytes with
          | None => PyNone
          | Some px =>
              let a := exif_transform (hdr_orientation h)
                         {| rows := hdr_height h; cols := hdr_width h;
                            channels := 3;
                            samples := tabulate (hdr_height h) (hdr_width h) 3 px |} in
              if is_empty a then PyNone else PyArray a
          end
      end
  end.

(** [cv2.imread(path)]. *)
Definition imread (path : string) : M value := fun w =>
  if refused (files w) path
  then Raised cv2_error (log (EvImread path) w)
  else Done (decoded (files w) path) (log (EvImread path) w).

(** [cv2.resize(src, (width, height))]: the binding parses the two sizes
    as C ints; the library asserts that the source is not empty and, with
    no scale factors given, that the requested size is not empty; the
    result is allocated with [height] rows and [width] columns and filled
    by the kernel. *)
Definition resize (src : value) (dsize : Z * Z) : M value :=
  let '(width, height) := dsize in
  if negb (fits_int width && fits_int height) then raise cv2_error
  else
    match src with
    | PyNone => raise cv2_error
    | PyArray a =>
        if is_empty a then raise cv2_error
        else if (width <=? 0) || (height <=? 0) then raise cv2_error
        else mret (PyArray {| rows := height; cols := width;
                              channels := channels a;
                              samples := tabulate height width (channels a)
                                           (interpolate a width height) |})
    end.

(** [cv2.imshow(title, img)]: asserts that the image is not empty, then
    creates the window if need be and puts the image in it; without a
    windowing surface the window cannot be created. *)
Definition imshow (title : string) (img : value) : M unit := fun w =>
  match img with
  | PyNone => Raised cv2_error w
  | PyArray a =>
      if is_empty a then Raised cv2_error w
      else if display w then Done tt (log (EvImshow title a) (put_window title a w))
      else Raised cv2_error w
  end.

(** [cv2.waitKey(delay)]: needs the windowing surface; with [delay <= 0]
    waits for a key press for as long as it takes; with a positive delay
    gives up with [-1]. *)
Definition waitKey (delay : Z) : M Z := fun w =>
  if display w then
    match keys w with
    | k :: ks => Done k (log (EvKey k) (set_keys ks w))
    | [] => if delay <=? 0 then Blocked w else Done (-1) w
    end
  else Raised cv2_error w.

End Library.
End cv2.

(** ** The script *)

(** The module's global variables when the script has run. *)
Record namespace : Type := Namespace {
  input : value;
  newHeight : float;
  overlay : value
}.

Section Script.

Variable read_header : list Byte.byte -> option header.
Variable read_data : list Byte.byte -> option (Z -> Z -> Z -> Z).
Variable interpolate : ndarray -> Z -> Z -> Z -> Z -> Z -> Z.

(** Lines 12 and 17, [cv2.imread(path)]. *)
Definition load (path : string) : M value :=
  cv2.imread read_header read_data path.

(** Line 13, [input.shape[0] * (600 / input.shape[1])]. *)
Definition new_height (img : value) : M float :=
  h ← shape_item img 0;
  w ← shape_item img 1;
  q ← truediv 600 w;
  mret (mul_int_float h q).

(** Line 14, [cv2.resize(input, (width, input.shape[0]))]; the script
    has the literal 600 for [width]. *)
Definition resize_to_width (img : value) (width : Z) : M value :=
  h ← shape_item img 0;
  cv2.resize interpolate img (width, h).

(** Lines 20 and 21, [cv2.imshow("Resized", img)] and [cv2.waitKey(0)]. *)
Definition show (img : value) : M unit :=
  _ ← cv2.imshow "Resized" img;
  _ ← cv2.waitKey 0;
  mret tt.

(** Lines 14 to 21, as a function of the two variables that lines 12
    and 13 have bound. *)
Definition after_line_13 (input0 : value) (newHeight : float) : M namespace :=
  input1 ← resize_to_width input0 600;
  overlay ← load "squirrel.jpg";
  _ ← show input1;
  mret {| input := input1; newHeight := newHeight; overlay := overlay |}.

(** Lines 12 to 21: all of [main.py] after its imports. *)
Definition main : M namespace :=
  input0 ← load "example.jpg";
  newHeight ← new_height input0;
  after_line_13 input0 newHeight.

(** *** Vocabulary for the statements about a run *)

(** The array that line 14 makes of the decoded base image. *)
Definition resized (a : ndarray) : ndarray :=
  {| rows := rows a; cols := 600; channels := channels a;
     samples := tabulate (rows a) 600 (channels a) (interpolate a 600 (rows a)) |}.

(** The value that line 13 computes for the decoded base image. *)
Definition aspect_height (a : ndarray) : float :=
  mul_int_float (rows a) (PrimFloat.div (float_of_Z 600) (float_of_Z (cols a))).

(** The variables at the end of a run that started in [w] and decoded
    [a0] as base image. *)
Definition globals_of (a0 : ndarray) (w : world) : namespace :=
  {| input := PyArray (resized a0); newHeight := aspect_height a0;
     overlay := cv2.decoded read_header read_data (files w) "squirrel.jpg" |}.

(** The base image is there: [imread] does not refuse [example.jpg] and
    decodes it to [a0]. *)
Definition base_is (a0 : ndarray) (w : world) : Prop :=
  cv2.refused read_header (files w) "example.jpg" = false /\
  cv2.decoded read_header read_data (files w) "example.jpg" = PyArray a0.

End Script.

(** The world once both files have been read. *)
Definition after_loads (w : world) : world :=
  log (EvImread "squirrel.jpg") (log (EvImread "example.jpg") w).

(** The world once [imshow title img] has returned. *)
Definition shown (title : string) (img : ndarray) (w : world) : world :=
  log (EvImshow title img) (put_window title img w).

(** The world once [waitKey] has returned key [k], [ks] still to come. *)
Definition keyed (k : Z) (ks : list Z) (w : world) : world :=
  log (EvKey k) (set_keys ks w).

(** The paths read and the window titles used, in order, in a trace. *)
Definition reads (t : list event) : list string :=
  omap (fun e => match e with EvImread p => Some p | _ => None end) t.

Definition titles (t : list event) : list string :=
  omap (fun e => match e with EvImshow s _ => Some s | _ => None end) t.

(** A world without what the script never looks at: the rest of the
    working directory apart, its command line and its environment. *)
Definition erase (w : world) : world :=
  {| files := ∅; display := display w; keys := keys w;
     windows := windows w; trace := trace w;
     argv := []; environ := ∅ |}.

Definition observe {A : Type} (o : outcome A) : outcome A :=
  match o with
  | Done a w => Done a (erase w)
  | Raised e w => Raised e (erase w)
  | Blocked w => Blocked (erase w)
  end.

(** Worlds that the script cannot tell apart: the same two files, the same
    display, keys, windows and trace. *)
Definition alike (w1 w2 : world) : Prop :=
  files w1 !! "example.jpg" = files w2 !! "example.jpg" /\
  files w1 !! "squirrel.jpg" = files w2 !! "squirrel.jpg" /\
  erase w1 = erase w2.

(** [o] with the variable [newHeight] rebound to [x]. *)
Definition rebind_newHeight (x : float) (o : outcome namespace) : outcome namespace :=
  match o with
  | Done g w => Done {| input := input g; newHeight := x; overlay := overlay g |} w
  | _ => o
  end.

(** ** Sample data

    A toy raster format and a nearest-neighbour kernel, to run the script
    on concrete working directories. *)

Module Sample.

Definition byte_val (b : Byte.byte) : Z := Z.of_N (Byte.to_N b).

Definition be3 (b2 b1 b0 : Byte.byte) : Z :=
  65536 * byte_val b2 + 256 * byte_val b1 + byte_val b0.

(** Three bytes of height, three of width (big endian), one byte of
    orientation tag; then [height * width * 3] samples. *)
Definition raw_header (bs : list Byte.byte) : option header :=
  match bs with
  | h2 :: h1 :: h0 :: w2 :: w1 :: w0 :: o :: _ =>
      Some {| hdr_height := be3 h2 h1 h0; hdr_width := be3 w2 w1 w0;
              hdr_orientation := byte_val o |}
  | _ => None
  end.

Definition raw_data (bs : list Byte.byte) : option (Z -> Z -> Z -> Z) :=
  match raw_header bs with
  | Some h =>
      let payload := drop 7 bs in
      if Z.of_nat (length payload) =? hdr_height h * hdr_width h * 3
      then Some (fun y x c =>
                   byte_val (nth (Z.to_nat ((y * hdr_width h + x) * 3 + c))
                                 payload Byte.x00))
      else None
  | None => None
  end.

Definition nearest (a : ndarray) (width height : Z) (y x c : Z) : Z :=
  sample_at a (y * rows a / height) (x * cols a / width) c.

(** A 2 by 4 image file, every sample 7, upright. *)
Definition small_file : list Byte.byte :=
  [Byte.x00; Byte.x00; Byte.x02; Byte.x00; Byte.x00; Byte.x04; Byte.x01]
    ++ repeat Byte.x07 24.

Definition small : ndarray :=
  {| rows := 2; cols := 4; channels := 3; samples := repeat 7 24 |}.

(** The same image, tagged as turned by a quarter (orientation 6). *)
Definition turned_file : list Byte.byte :=
  [Byte.x00; Byte.x00; Byte.x02; Byte.x00; Byte.x00; Byte.x04; Byte.x06]
    ++ repeat Byte.x07 24.

(** A header that announces 1 row of 2^21 columns, and nothing after. *)
Definition wide_file : list Byte.byte :=
  [Byte.x00; Byte.x00; Byte.x01; Byte.x20; Byte.x00; Byte.x00; Byte.x01].

(** An array of no rows. *)
Definition hollow : ndarray :=
  {| rows := 0; cols := 800; channels := 3; samples := [] |}.

(** A 400 by 800 array, every sample 0. *)
Definition frame : ndarray :=
  {| rows := 400; cols := 800; channels := 3;
     samples := repeat 0 (400 * 800 * 3)%nat |}.

Definition world_of (fs : gmap string (list Byte.byte)) (ks : list Z) : world :=
  {| files := fs; display := true; keys := ks; windows := ∅; trace := [];
     argv := ["main.py"]; environ := ∅ |}.

(** Both images in place and one key press (32, the space bar) to come. *)
Definition both : world :=
  world_of {[ "example.jpg" := small_file; "squirrel.jpg" := small_file ]} [32].

(** The same two images among other files, with arguments on the command
    line and a variable in the environment. *)
Definition crowded : world :=
  {| files := {[ "example.jpg" := small_file;
                 "squirrel.jpg" := small_file;
                 "notes.txt" := [Byte.x41] ]};
     display := true; keys := [32]; windows := ∅; trace := [];
     argv := ["main.py"; "--width"; "300"];
     environ := {[ "WIDTH" := "300" ]} |}.

(** What a run in [both] ends with. *)
Definition both_globals : namespace :=
  {| input := PyArray (resized nearest small);
     newHeight := 300%float;
     overlay := PyArray small |}.

Definition both_final : world :=
  keyed 32 [] (shown "Resized" (resized nearest small) (after_loads both)).

(** Only a file that is no image under the name of the base image. *)
Definition corrupt : world :=
  world_of {[ "example.jpg" := [Byte.x41; Byte.x42] ]} [32].

(** An empty working directory. *)
Definition bare : world := world_of ∅ [32].

(** The base image only: no [squirrel.jpg]. *)
Definition no_overlay : world :=
  world_of {[ "example.jpg" := small_file ]} [32].

(** Both images and two key presses to come (space, then escape). *)
Definition two_keys : world := world_of (files both) [32; 27].

(** Both images and a key to come, but no display. *)
Definition headless : world :=
  {| files := files both; display := false; keys := [32]; windows := ∅;
     trace := []; argv := ["main.py"]; environ := ∅ |}.

(** The base image tagged as turned. *)
Definition turned : world :=
  world_of {[ "example.jpg" := turned_file; "squirrel.jpg" := small_file ]} [32].

(** An overlay whose header announces too wide an image. *)
Definition wide_overlay : world :=
  world_of {[ "example.jpg" := small_file; "squirrel.jpg" := wide_file ]} [32].

End Sample.

(** ** How statements compose *)

Section Bind.

Context {A B : Type} (c : M A) (k : A -> M B) (w : world).

Lemma bind_Done (a : A) (w' : world) :
  c w = Done a w' -> (c ≫= k) w = k a w'.
Proof. intros Hc. unfold mbind, M_bind. now rewrite Hc. Qed.

Lemma bind_Raised (e : exn) (w' : world) :
  c w = Raised e w' -> (c ≫= k) w = Raised e w'.
Proof. intros Hc. unfold mbind, M_bind. now rewrite Hc. Qed.

Lemma bind_Blocked (w' : world) :
  c w = Blocked w' -> (c ≫= k) w = Blocked w'.
Proof. intros Hc. unfold mbind, M_bind. now rewrite Hc. Qed.

End Bind.

Lemma ret_Done {A : Type} (a : A) (w : world) : (mret a : M A) w = Done a w.
Proof. reflexivity. Qed.

(** Rewrite a run of statements one statement at a time. *)
Ltac step :=
  first [ erewrite bind_Done by (try reflexivity; eassumption)
        | erewrite bind_Raised by (try reflexivity; eassumption)
        | erewrite bind_Blocked by (try reflexivity; eassumption)
        | rewrite ret_Done ].

(** ** Arrays *)

Lemma length_bind_const {A B : Type} (f : A -> list B) (l : list A) (n : nat) :
  (forall x, length (f x) = n) -> length (l ≫= f) = (length l * n)%nat.
Proof.
  intros Hf. induction l as [|x l IH]; [reflexivity|].
  rewrite bind_cons, length_app, IH, Hf. reflexivity.
Qed.

(** A tabulated matrix has one sample per row, column and channel. *)
Lemma length_tabulate (h w c : Z) (f : Z -> Z -> Z -> Z) :
  length (tabulate h w c f) = (Z.to_nat h * Z.to_nat w * Z.to_nat c)%nat.
Proof.
  unfold tabulate.
  rewrite (length_bind_const _ _ (Z.to_nat w * Z.to_nat c)), length_seqZ; [lia|].
  intros y. rewrite (length_bind_const _ _ (Z.to_nat c)), length_seqZ; [lia|].
  intros x. rewrite (length_bind_const _ _ 1%nat), length_seqZ; [lia|].
  reflexivity.
Qed.

(** In whole numbers, when the dimensions are not negative. *)
Lemma dense_count (a : ndarray) :
  dense a -> 0 <= rows a -> 0 <= cols a -> 0 <= channels a ->
  Z.of_nat (length (samples a)) = rows a * cols a * channels a.
Proof. unfold dense. intros -> Hr Hc Hk. lia. Qed.

Lemma is_empty_false (a : ndarray) :
  is_empty a = false <-> 0 < rows a /\ 0 < cols a.
Proof. unfold is_empty. rewrite orb_false_iff, !Z.leb_gt. tauto. Qed.

Lemma shape_3 (a : ndarray) :
  channels a = 3 -> shape a = [rows a; cols a; 3].
Proof. unfold shape. now intros ->. Qed.

Lemma shape_inv (a : ndarray) (h w c : Z) :
  shape a = [h; w; c] -> rows a = h /\ cols a = w /\ channels a = c.
Proof.
  unfold shape. destruct (channels a =? 1); [discriminate|].
  intros Heq. injection Heq as -> -> ->. auto.
Qed.

Lemma shape_item_0 (a : ndarray) (w : world) :
  shape_item (PyArray a) 0 w = Done (rows a) w.
Proof. unfold shape_item, shape. now destruct (channels a =? 1). Qed.

Lemma shape_item_1 (a : ndarray) (w : world) :
  shape_item (PyArray a) 1 w = Done (cols a) w.
Proof. unfold shape_item, shape. now destruct (channels a =? 1). Qed.

(** ** Orientation *)

Lemma exif_flip_dims (o : Z) (a : ndarray) :
  rows (cv2.exif_flip o a) = rows a /\
  cols (cv2.exif_flip o a) = cols a /\
  channels (cv2.exif_flip o a) = channels a.
Proof.
  unfold cv2.exif_flip.
  destruct ((o =? 2) || (o =? 6)); [now simpl|].
  destruct ((o =? 3) || (o =? 7)); [now simpl|].
  destruct ((o =? 4) || (o =? 8)); now simpl.
Qed.

Lemma exif_flip_dense (o : Z) (a : ndarray) :
  dense a -> dense (cv2.exif_flip o a).
Proof.
  intros Ha. unfold cv2.exif_flip.
  destruct ((o =? 2) || (o =? 6)); [apply length_tabulate|].
  destruct ((o =? 3) || (o =? 7)); [apply length_tabulate|].
  destruct ((o =? 4) || (o =? 8)); [apply length_tabulate | exact Ha].
Qed.

(** Tags 5 to 8 swap height and width; the others keep them. *)
Lemma exif_transform_dims (o : Z) (a : ndarray) :
  rows (cv2.exif_transform o a) = (if cv2.transposes o then cols a else rows a) /\
  cols (cv2.exif_transform o a) = (if cv2.transposes o then rows a else cols a) /\
  channels (cv2.exif_transform o a) = channels a.
Proof.
  unfold cv2.exif_transform.
  destruct (exif_flip_dims o (if cv2.transposes o then cv2.transpose a else a))
    as (-> & -> & ->).
  now destruct (cv2.transposes o).
Qed.

Lemma exif_transform_dense (o : Z) (a : ndarray) :
  dense a -> dense (cv2.exif_transform o a).
Proof.
  intros Ha. unfold cv2.exif_transform. apply exif_flip_dense.
  destruct (cv2.transposes o); [apply length_tabulate | exact Ha].
Qed.

Lemma size_ok_inv (h : header) :
  cv2.size_ok h = true ->
  0 < hdr_width h <= 2 ^ 20 /\ 0 < hdr_height h <= 2 ^ 20 /\
  hdr_width h * hdr_height h <= 2 ^ 30.
Proof.
  unfold cv2.size_ok, cv2.max_image_width, cv2.max_image_height,
    cv2.max_image_pixels.
  rewrite !andb_true_iff, !Z.ltb_lt, !Z.leb_le. tauto.
Qed.

Lemma size_ok_intro (h : header) :
  0 < hdr_width h <= 2 ^ 20 -> 0 < hdr_height h <= 2 ^ 20 ->
  hdr_width h * hdr_height h <= 2 ^ 30 ->
  cv2.size_ok h = true.
Proof.
  unfold cv2.size_ok, cv2.max_image_width, cv2.max_image_height,
    cv2.max_image_pixels.
  rewrite !andb_true_iff, !Z.ltb_lt, !Z.leb_le. tauto.
Qed.

(** ** The library calls *)

Section Run.

Variable read_header : list Byte.byte -> option header.
Variable read_data : list Byte.byte -> option (Z -> Z -> Z -> Z).
Variable interpolate : ndarray -> Z -> Z -> Z -> Z -> Z -> Z.

Local Abbreviation decoded := (cv2.decoded read_header read_data).
Local Abbreviation refused := (cv2.refused read_header).
Local Abbreviation load := (load read_header read_data).
Local Abbreviation resize_to_width := (resize_to_width interpolate).
Local Abbreviation resized := (resized interpolate).
Local Abbreviation main := (main read_header read_data interpolate).
Local Abbreviation after_line_13 := (after_line_13 read_header read_data interpolate).
Local Abbreviation globals_of := (globals_of read_header read_data interpolate).
Local Abbreviation base_is := (base_is read_header read_data).

(** [imread] hands out an array only if it has rows and columns. *)
Lemma decoded_not_empty (fs : gmap string (list Byte.byte)) (p : string) (a : ndarray) :
  decoded fs p = PyArray a -> is_empty a = false.
Proof.
  unfold cv2.decoded. destruct (fs !! p) as [bs|]; [|discriminate].
  destruct (read_header bs) as [h|]; [|discriminate].
  destruct (read_data bs) as [px|]; [|discriminate]. cbv zeta.
  destruct (is_empty _) eqn:Hb; [discriminate|].
  intros [= <-]. exact Hb.
Qed.

(** What [imread] returns is the matrix of a header within the limits:
    three channels, dense, at most 2^20 rows and columns. *)
Lemma decoded_valid (fs : gmap string (list Byte.byte)) (p : string) (a : ndarray) :
  refused fs p = false -> decoded fs p = PyArray a ->
  0 < rows a <= 2 ^ 20 /\ 0 < cols a <= 2 ^ 20 /\ channels a = 3 /\ dense a.
Proof.
  unfold cv2.refused, cv2.decoded. destruct (fs !! p) as [bs|]; [|discriminate].
  destruct (read_header bs) as [h|]; [|discriminate].
  intros Hok. apply negb_false_iff, size_ok_inv in Hok as (Hw & Hh & _).
  destruct (read_data bs) as [px|]; [|discriminate]. cbv zeta.
  destruct (is_empty _); [discriminate|]. intros [= <-].
  match goal with |- context [cv2.exif_transform ?o ?b] =>
    destruct (exif_transform_dims o b) as (-> & -> & ->);
    pose proof (exif_transform_dense o b (length_tabulate _ _ _ _)) as Hd
  end. simpl.
  split; [|split; [|split; [reflexivity | exact Hd]]];
    destruct (cv2.transposes _); lia.
Qed.

(** [decoded] and [refused] look at one file only. *)
Lemma decoded_ext (fs fs' : gmap string (list Byte.byte)) (p : string) :
  fs !! p = fs' !! p -> decoded fs p = decoded fs' p.
Proof. unfold cv2.decoded. now intros ->. Qed.

Lemma refused_ext (fs fs' : gmap string (list Byte.byte)) (p : string) :
  fs !! p = fs' !! p -> refused fs p = refused fs' p.
Proof. unfold cv2.refused. now intros ->. Qed.

Lemma load_run (p : string) (w : world) :
  refused (files w) p = false ->
  load p w = Done (decoded (files w) p) (log (EvImread p) w).
Proof. intros Hr. unfold load, cv2.imread. now rewrite Hr. Qed.

Lemma load_refused (p : string) (w : world) :
  refused (files w) p = true ->
  load p w = Raised cv2_error (log (EvImread p) w).
Proof. intros Hr. unfold load, cv2.imread. now rewrite Hr. Qed.

(** A load that returns has not refused the file, returns what the file
    decodes to, and has only logged the read. *)
Lemma load_Done_inv (p : string) (v : value) (w w1 : world) :
  load p w = Done v w1 ->
  refused (files w) p = false /\ v = decoded (files w) p /\ w1 = log (EvImread p) w.
Proof.
  unfold load, cv2.imread. destruct (refused (files w) p); [discriminate|].
  intros [= <- <-]. auto.
Qed.

Lemma new_height_None (w : world) :
  new_height PyNone w = Raised AttributeError w.
Proof. reflexivity. Qed.

Lemma new_height_array (a : ndarray) (w : world) :
  is_empty a = false ->
  new_height (PyArray a) w = Done (aspect_height a) w.
Proof.
  intros Ha. apply is_empty_false in Ha as [_ Hc].
  unfold new_height.
  rewrite (bind_Done _ _ _ _ _ (shape_item_0 a w)).
  rewrite (bind_Done _ _ _ _ _ (shape_item_1 a w)).
  unfold truediv. destruct (cols a =? 0) eqn:Hz; [apply Z.eqb_eq in Hz; lia|].
  reflexivity.
Qed.

Lemma resize_run (a : ndarray) (width height : Z) (w : world) :
  is_empty a = false -> 0 < width < 2 ^ 31 -> 0 < height < 2 ^ 31 ->
  cv2.resize interpolate (PyArray a) (width, height) w
  = Done (PyArray {| rows := height; cols := width; channels := channels a;
                     samples := tabulate height width (channels a)
                                  (interpolate a width height) |}) w.
Proof.
  intros Ha Hw Hh. unfold cv2.resize, cv2.fits_int. rewrite Ha.
  destruct (- 2 ^ 31 <=? width) eqn:E1; [|apply Z.leb_gt in E1; lia].
  destruct (width <? 2 ^ 31) eqn:E2; [|apply Z.ltb_ge in E2; lia].
  destruct (- 2 ^ 31 <=? height) eqn:E3; [|apply Z.leb_gt in E3; lia].
  destruct (height <? 2 ^ 31) eqn:E4; [|apply Z.ltb_ge in E4; lia].
  destruct (width <=? 0) eqn:E5; [apply Z.leb_le in E5; lia|].
  destruct (height <=? 0) eqn:E6; [apply Z.leb_le in E6; lia|].
  reflexivity.
Qed.

Lemma resize_raises (a : ndarray) (width height : Z) (w : world) :
  width <= 0 \/ is_empty a = true ->
  cv2.resize interpolate (PyArray a) (width, height) w = Raised cv2_error w.
Proof.
  intros Hbad. unfold cv2.resize.
  destruct (negb _); [reflexivity|].
  destruct (is_empty a); [reflexivity|].
  destruct Hbad as [Hw|Ha]; [|discriminate].
  apply Z.leb_le in Hw. now rewrite Hw.
Qed.

(** Sizes that do not fit a C int are refused before anything else. *)
Lemma resize_out_of_range (src : value) (width height : Z) (w : world) :
  2 ^ 31 <= width \/ 2 ^ 31 <= height ->
  cv2.resize interpolate src (width, height) w = Raised cv2_error w.
Proof.
  intros Hbig. unfold cv2.resize, cv2.fits_int.
  destruct (width <? 2 ^ 31) eqn:E1; [|now rewrite andb_false_r].
  destruct (height <? 2 ^ 31) eqn:E2; [|now rewrite !andb_false_r].
  apply Z.ltb_lt in E1, E2. lia.
Qed.

Lemma resize_to_width_run (a : ndarray) (width : Z) (w : world) :
  is_empty a = false -> 0 < width < 2 ^ 31 -> rows a < 2 ^ 31 ->
  resize_to_width (PyArray a) width w
  = Done (PyArray {| rows := rows a; cols := width; channels := channels a;
                     samples := tabulate (rows a) width (channels a)
                                  (interpolate a width (rows a)) |}) w.
Proof.
  intros Ha Hw Hr. unfold resize_to_width.
  rewrite (bind_Done _ _ _ _ _ (shape_item_0 a w)).
  apply resize_run; auto. apply is_empty_false in Ha. lia.
Qed.

Lemma resize_to_width_raises (a : ndarray) (width : Z) (w : world) :
  width <= 0 \/ is_empty a = true ->
  resize_to_width (PyArray a) width w = Raised cv2_error w.
Proof.
  intros Hbad. unfold resize_to_width.
  rewrite (bind_Done _ _ _ _ _ (shape_item_0 a w)).
  now apply resize_raises.
Qed.

Lemma imshow_run (title : string) (a : ndarray) (w : world) :
  is_empty a = false -> display w = true ->
  cv2.imshow title (PyArray a) w = Done tt (shown title a w).
Proof. intros Ha Hd. unfold cv2.imshow. now rewrite Ha, Hd. Qed.

Lemma imshow_no_display (title : string) (a : ndarray) (w : world) :
  display w = false -> cv2.imshow title (PyArray a) w = Raised cv2_error w.
Proof. intros Hd. unfold cv2.imshow. rewrite Hd. now destruct (is_empty a). Qed.

Lemma waitKey_key (k : Z) (ks : list Z) (delay : Z) (w : world) :
  display w = true -> keys w = k :: ks ->
  cv2.waitKey delay w = Done k (keyed k ks w).
Proof. intros Hd Hk. unfold cv2.waitKey. now rewrite Hd, Hk. Qed.

Lemma waitKey_forever (w : world) :
  display w = true -> keys w = [] -> cv2.waitKey 0 w = Blocked w.
Proof. intros Hd Hk. unfold cv2.waitKey. now rewrite Hd, Hk. Qed.

(** ** Lines 20 and 21 *)

Lemma show_key (a : ndarray) (k : Z) (ks : list Z) (w : world) :
  is_empty a = false -> display w = true -> keys w = k :: ks ->
  show (PyArray a) w = Done tt (keyed k ks (shown "Resized" a w)).
Proof.
  intros Ha Hd Hk. unfold show.
  rewrite (bind_Done _ _ _ tt (shown "Resized" a w)) by now apply imshow_run.
  rewrite (bind_Done _ _ _ k (keyed k ks (shown "Resized" a w)))
    by now apply waitKey_key.
  reflexivity.
Qed.

Lemma show_blocked (a : ndarray) (w : world) :
  is_empty a = false -> display w = true -> keys w = [] ->
  show (PyArray a) w = Blocked (shown "Resized" a w).
Proof.
  intros Ha Hd Hk. unfold show.
  rewrite (bind_Done _ _ _ tt (shown "Resized" a w)) by now apply imshow_run.
  apply bind_Blocked. now apply waitKey_forever.
Qed.

Lemma show_no_display (a : ndarray) (w : world) :
  display w = false -> show (PyArray a) w = Raised cv2_error w.
Proof. intros Hd. unfold show. apply bind_Raised. now apply imshow_no_display. Qed.

(** ** The script, case by case *)

Lemma resized_not_empty (a : ndarray) :
  is_empty a = false -> is_empty (resized a) = false.
Proof. rewrite !is_empty_false. simpl. lia. Qed.

Lemma resize_600 (a0 : ndarray) (w : world) :
  is_empty a0 = false -> rows a0 < 2 ^ 31 ->
  resize_to_width (PyArray a0) 600 w = Done (PyArray (resized a0)) w.
Proof. intros Ha Hr. apply resize_to_width_run; [exact Ha | lia | exact Hr]. Qed.

Lemma after_line_13_refused (a0 : ndarray) (x : float) (w : world) :
  is_empty a0 = false -> rows a0 < 2 ^ 31 ->
  refused (files w) "squirrel.jpg" = true ->
  after_line_13 (PyArray a0) x w = Raised cv2_error (log (EvImread "squirrel.jpg") w).
Proof.
  intros Ha Hr Hsq. unfold after_line_13.
  rewrite (bind_Done _ _ _ _ _ (resize_600 a0 w Ha Hr)).
  apply bind_Raised. now apply load_refused.
Qed.

Lemma after_line_13_array (a0 : ndarray) (x : float) (w : world) :
  is_empty a0 = false -> rows a0 < 2 ^ 31 ->
  refused (files w) "squirrel.jpg" = false ->
  after_line_13 (PyArray a0) x w
  = (show (PyArray (resized a0)) ≫= fun _ =>
       mret {| input := PyArray (resized a0); newHeight := x;
               overlay := decoded (files w) "squirrel.jpg" |})
      (log (EvImread "squirrel.jpg") w).
Proof.
  intros Ha Hr Hsq. unfold after_line_13.
  rewrite (bind_Done _ _ _ _ _ (resize_600 a0 w Ha Hr)).
  now rewrite (bind_Done _ _ _ _ _ (load_run "squirrel.jpg" w Hsq)).
Qed.

Lemma base_is_valid (a0 : ndarray) (w : world) :
  base_is a0 w ->
  is_empty a0 = false /\ 0 < rows a0 <= 2 ^ 20 /\ 0 < cols a0 <= 2 ^ 20 /\
  channels a0 = 3 /\ dense a0.
Proof.
  intros [Hr Hdec]. split; [now apply decoded_not_empty in Hdec|].
  now apply (decoded_valid (files w) "example.jpg").
Qed.

Lemma main_refused_base (w : world) :
  refused (files w) "example.jpg" = true ->
  main w = Raised cv2_error (log (EvImread "example.jpg") w).
Proof. intros Hr. unfold main. apply bind_Raised. now apply load_refused. Qed.

Lemma main_missing (w : world) :
  refused (files w) "example.jpg" = false ->
  decoded (files w) "example.jpg" = PyNone ->
  main w = Raised AttributeError (log (EvImread "example.jpg") w).
Proof.
  intros Hr Hdec. unfold main.
  rewrite (bind_Done _ _ _ _ _ (load_run "example.jpg" w Hr)), Hdec.
  apply bind_Raised, new_height_None.
Qed.

Lemma main_from_line_14 (a0 : ndarray) (w : world) :
  base_is a0 w ->
  main w = after_line_13 (PyArray a0) (aspect_height a0) (log (EvImread "example.jpg") w).
Proof.
  intros Hbase. destruct (base_is_valid _ _ Hbase) as (Ha & _).
  destruct Hbase as [Hr Hdec]. unfold main.
  rewrite (bind_Done _ _ _ _ _ (load_run "example.jpg" w Hr)), Hdec.
  now rewrite (bind_Done _ _ _ _ _ (new_height_array a0 _ Ha)).
Qed.

Lemma main_refused_overlay (a0 : ndarray) (w : world) :
  base_is a0 w ->
  refused (files w) "squirrel.jpg" = true ->
  main w = Raised cv2_error (after_loads w).
Proof.
  intros Hbase Hsq. rewrite (main_from_line_14 a0) by exact Hbase.
  destruct (base_is_valid _ _ Hbase) as (Ha & Hrows & _).
  apply after_line_13_refused; [exact Ha | lia | exact Hsq].
Qed.

Lemma main_array (a0 : ndarray) (w : world) :
  base_is a0 w ->
  refused (files w) "squirrel.jpg" = false ->
  main w = (show (PyArray (resized a0)) ≫= fun _ => mret (globals_of a0 w))
             (after_loads w).
Proof.
  intros Hbase Hsq. rewrite (main_from_line_14 a0) by exact Hbase.
  destruct (base_is_valid _ _ Hbase) as (Ha & Hrows & _).
  apply after_line_13_array; [exact Ha | lia | exact Hsq].
Qed.

Lemma main_done (a0 : ndarray) (k : Z) (ks : list Z) (w : world) :
  base_is a0 w ->
  refused (files w) "squirrel.jpg" = false ->
  display w = true -> keys w = k :: ks ->
  main w = Done (globals_of a0 w)
                (keyed k ks (shown "Resized" (resized a0) (after_loads w))).
Proof.
  intros Hbase Hsq Hd Hk. rewrite (main_array a0) by assumption.
  destruct (base_is_valid _ _ Hbase) as (Ha & _). apply resized_not_empty in Ha.
  now rewrite (bind_Done _ _ _ _ _ (show_key _ k ks (after_loads w) Ha Hd Hk)).
Qed.

Lemma main_blocked (a0 : ndarray) (w : world) :
  base_is a0 w ->
  refused (files w) "squirrel.jpg" = false ->
  display w = true -> keys w = [] ->
  main w = Blocked (shown "Resized" (resized a0) (after_loads w)).
Proof.
  intros Hbase Hsq Hd Hk. rewrite (main_array a0) by assumption.
  destruct (base_is_valid _ _ Hbase) as (Ha & _). apply resized_not_empty in Ha.
  apply bind_Blocked. now apply show_blocked.
Qed.

Lemma main_no_display (a0 : ndarray) (w : world) :
  base_is a0 w ->
  refused (files w) "squirrel.jpg" = false ->
  display w = false ->
  main w = Raised cv2_error (after_loads w).
Proof.
  intros Hbase Hsq Hd. rewrite (main_array a0) by assumption.
  apply bind_Raised. now apply show_no_display.
Qed.

(** The six ways a run can go, by what the world offers. *)
Lemma main_cases (w : world) :
  (refused (files w) "example.jpg" = true /\
   main w = Raised cv2_error (log (EvImread "example.jpg") w)) \/
  (refused (files w) "example.jpg" = false /\
   decoded (files w) "example.jpg" = PyNone /\
   main w = Raised AttributeError (log (EvImread "example.jpg") w)) \/
  (exists a0, base_is a0 w /\
     ((refused (files w) "squirrel.jpg" = true /\
       main w = Raised cv2_error (after_loads w)) \/
      (refused (files w) "squirrel.jpg" = false /\
       ((display w = false /\ main w = Raised cv2_error (after_loads w)) \/
        (display w = true /\ keys w = [] /\
         main w = Blocked (shown "Resized" (resized a0) (after_loads w))) \/
        (exists k ks, display w = true /\ keys w = k :: ks /\
         main w = Done (globals_of a0 w)
                       (keyed k ks (shown "Resized" (resized a0) (after_loads w)))))))).
Proof.
  destruct (refused (files w) "example.jpg") eqn:Hr.
  { left. split; [reflexivity|]. now apply main_refused_base. }
  right.
  destruct (decoded (files w) "example.jpg") as [|a0] eqn:Hdec.
  { left. split; [reflexivity|]. split; [reflexivity|]. now apply main_missing. }
  right. exists a0. assert (Hbase : base_is a0 w) by now split.
  split; [exact Hbase|].
  destruct (refused (files w) "squirrel.jpg") eqn:Hsq.
  { left. split; [reflexivity|]. now apply (main_refused_overlay a0). }
  right. split; [reflexivity|].
  destruct (display w) eqn:Hd; [destruct (keys w) as [|k ks] eqn:Hk|].
  - right. left. repeat split. now apply main_blocked.
  - right. right. exists k, ks. repeat split. now apply main_done.
  - left. split; [reflexivity|]. now apply (main_no_display a0).
Qed.

(** Tear [main_cases] apart and rewrite the run in each case. *)
Ltac main_cases w :=
  let a0 := fresh "a0" in
  let k := fresh "k" in
  let ks := fresh "ks" in
  let Hm := fresh "Hm" in
  destruct (main_cases w)
    as [[?Hr Hm] | [(?Hr & ?Hdec & Hm) | (a0 & ?Hbase &
         [[?Hsq Hm] | [?Hsq [[?Hd Hm] | [(?Hd & ?Hk & Hm) | (k & ks & ?Hd & ?Hk & Hm)]]]])]].

(** A run that ends has decoded the base image, refused neither file,
    had a display and got a key; nothing else ends it. *)
Lemma main_done_inv (g : namespace) (w w' : world) :
  main w = Done g w' ->
  exists a0 k ks,
    base_is a0 w /\
    refused (files w) "squirrel.jpg" = false /\
    display w = true /\ keys w = k :: ks /\
    g = globals_of a0 w /\
    w' = keyed k ks (shown "Resized" (resized a0) (after_loads w)).
Proof.
  intros Hrun. main_cases w; rewrite Hm in Hrun; try discriminate.
  injection Hrun as <- <-. now exists a0, k, ks.
Qed.

(** ** The trace of a run *)

Lemma reads_snoc (t : list event) (e : event) :
  reads (t ++ [e]) = reads t ++ match e with EvImread p => [p] | _ => [] end.
Proof. unfold reads. rewrite omap_app. now destruct e. Qed.

Lemma titles_snoc (t : list event) (e : event) :
  titles (t ++ [e]) = titles t ++ match e with EvImshow s _ => [s] | _ => [] end.
Proof. unfold titles. rewrite omap_app. now destruct e. Qed.

Lemma trace_done (a : ndarray) (k : Z) (ks : list Z) (w : world) :
  trace (keyed k ks (shown "Resized" a (after_loads w)))
  = trace w ++ [EvImread "example.jpg"; EvImread "squirrel.jpg";
                EvImshow "Resized" a; EvKey k].
Proof. simpl. now rewrite <- !app_assoc. Qed.

(** ** What the script looks at *)

Lemma erase_inv (w1 w2 : world) :
  erase w1 = erase w2 ->
  display w1 = display w2 /\ keys w1 = keys w2 /\
  windows w1 = windows w2 /\ trace w1 = trace w2.
Proof. unfold erase. intros [= Hd Hk Hw Ht]. auto. Qed.

Lemma erase_log (e : event) (w1 w2 : world) :
  erase w1 = erase w2 -> erase (log e w1) = erase (log e w2).
Proof. intros H. apply erase_inv in H as (Hd & Hk & Hw & Ht). unfold erase, log. simpl. congruence. Qed.

Lemma erase_put_window (s : string) (a : ndarray) (w1 w2 : world) :
  erase w1 = erase w2 -> erase (put_window s a w1) = erase (put_window s a w2).
Proof. intros H. apply erase_inv in H as (Hd & Hk & Hw & Ht). unfold erase, put_window. simpl. congruence. Qed.

Lemma erase_set_keys (ks : list Z) (w1 w2 : world) :
  erase w1 = erase w2 -> erase (set_keys ks w1) = erase (set_keys ks w2).
Proof. intros H. apply erase_inv in H as (Hd & Hk & Hw & Ht). unfold erase, set_keys. simpl. congruence. Qed.

Create HintDb erase.
#[local] Hint Resolve erase_log erase_put_window erase_set_keys : erase.

Lemma base_is_ext (a0 : ndarray) (w w2 : world) :
  files w2 !! "example.jpg" = files w !! "example.jpg" ->
  base_is a0 w -> base_is a0 w2.
Proof.
  intros Hf [Hr Hdec]. split.
  - now rewrite (refused_ext _ _ _ Hf).
  - now rewrite (decoded_ext _ _ _ Hf).
Qed.

(** The base image, the display and the keys settle everything but the
    variable [overlay], unless [imread] refuses the other world's
    [squirrel.jpg]. *)
Lemma main_done_same_base (a0 : ndarray) (k : Z) (ks : list Z) (w w2 : world) :
  base_is a0 w ->
  display w = true -> keys w = k :: ks ->
  files w2 !! "example.jpg" = files w !! "example.jpg" ->
  erase w2 = erase w ->
  (refused (files w2) "squirrel.jpg" = true /\
   main w2 = Raised cv2_error (after_loads w2)) \/
  exists g2 w2',
    main w2 = Done g2 w2' /\
    input g2 = PyArray (resized a0) /\ newHeight g2 = aspect_height a0 /\
    overlay g2 = decoded (files w2) "squirrel.jpg" /\
    erase w2' = erase (keyed k ks (shown "Resized" (resized a0) (after_loads w))).
Proof.
  intros Hbase Hd Hk Hf He.
  pose proof (erase_inv _ _ He) as (Hd2 & Hk2 & _ & _).
  apply (base_is_ext a0 w w2 Hf) in Hbase.
  rewrite <- Hd2 in Hd. rewrite <- Hk2 in Hk.
  destruct (refused (files w2) "squirrel.jpg") eqn:Hsq.
  - left. split; [reflexivity|]. now apply (main_refused_overlay a0).
  - right. eexists _, _. split; [apply (main_done a0 k ks); assumption|].
    repeat split. unfold keyed, shown, after_loads. auto 10 with erase.
Qed.

(** Worlds that are alike give the same run. *)
Lemma main_alike (w1 w2 : world) :
  alike w1 w2 -> observe (main w1) = observe (main w2).
Proof.
  intros (Hex & Hsq & He).
  pose proof (erase_inv _ _ He) as (Hd & Hk & _ & _).
  assert (Hloads : erase (after_loads w1) = erase (after_loads w2))
    by (unfold after_loads; auto with erase).
  main_cases w1; rewrite Hm.
  - rewrite (refused_ext _ _ _ Hex) in Hr.
    rewrite (main_refused_base w2) by exact Hr.
    simpl. f_equal. auto with erase.
  - rewrite (refused_ext _ _ _ Hex) in Hr. rewrite (decoded_ext _ _ _ Hex) in Hdec.
    rewrite (main_missing w2) by assumption.
    simpl. f_equal. auto with erase.
  - apply (base_is_ext a0 w1 w2 (eq_sym Hex)) in Hbase.
    rewrite (refused_ext _ _ _ Hsq) in Hsq0.
    rewrite (main_refused_overlay a0 w2) by assumption.
    simpl. now f_equal.
  - apply (base_is_ext a0 w1 w2 (eq_sym Hex)) in Hbase.
    rewrite (refused_ext _ _ _ Hsq) in Hsq0.
    rewrite (main_no_display a0 w2) by congruence.
    simpl. now f_equal.
  - apply (base_is_ext a0 w1 w2 (eq_sym Hex)) in Hbase.
    rewrite (refused_ext _ _ _ Hsq) in Hsq0.
    rewrite (main_blocked a0 w2) by congruence.
    simpl. f_equal. unfold shown. auto with erase.
  - apply (base_is_ext a0 w1 w2 (eq_sym Hex)) in Hbase.
    rewrite (refused_ext _ _ _ Hsq) in Hsq0.
    rewrite (main_done a0 k ks w2) by congruence.
    simpl. f_equal.
    + unfold globals_of. f_equal. now apply decoded_ext.
    + unfold keyed, shown. auto 10 with erase.
Qed.

(** ** The resizer (line 14) *)

(** C1, as the code has it.  Resizing a pixel buffer of dimensions
    (H, W, 3) to a target width W' yields a buffer of dimensions
    (H, W', 3), dense with H * W' * 3 samples: the height is the buffer's
    own.  The buffer is a valid one (it has rows and columns), and the
    width is positive and fits the C int that the binding takes, as does
    the height of any buffer that OpenCV made. *)
Theorem resize_keeps_height (a : ndarray) (H W W' : Z) (w : world) :
  shape a = [H; W; 3] -> 0 < H < 2 ^ 31 -> 0 < W -> 0 < W' < 2 ^ 31 ->
  exists r,
    resize_to_width (PyArray a) W' w = Done (PyArray r) w /\
    shape r = [H; W'; 3] /\
    Z.of_nat (length (samples r)) = H * W' * 3.
Proof.
  intros Hshape HH HW HW'.
  apply shape_inv in Hshape as (Hr & Hc & Hch).
  assert (Ha : is_empty a = false) by (apply is_empty_false; lia).
  eexists. split; [|split].
  - apply resize_to_width_run; [exact Ha | exact HW' | lia].
  - unfold shape. simpl. now rewrite Hr, Hch.
  - simpl. rewrite length_tabulate, Hr, Hch.
    rewrite !Nat2Z.inj_mul, !Z2Nat.id by lia. reflexivity.
Qed.

(** C4.  With a target width of 0 or less, and with an empty input
    buffer, the resize operation fails: [cv2.resize] raises [cv2.error],
    the exception that the specification files under the name
    InvalidDimensionError.  This holds for line 14 with any width in the
    place of 600 and for [cv2.resize] at any requested height. *)
Theorem resize_rejects_bad_dimensions (a : ndarray) (width : Z) (w : world) :
  width <= 0 \/ is_empty a = true ->
  resize_to_width (PyArray a) width w = Raised cv2_error w /\
  forall height,
    cv2.resize interpolate (PyArray a) (width, height) w = Raised cv2_error w.
Proof.
  intros Hbad. split.
  - now apply resize_to_width_raises.
  - intros height. now apply resize_raises.
Qed.

(** In the script itself: the base image keeps its height and gets
    width 600. *)
Lemma main_input_shape (g : namespace) (w w' : world) :
  main w = Done g w' ->
  exists a0 r,
    decoded (files w) "example.jpg" = PyArray a0 /\
    input g = PyArray r /\
    shape r = [rows a0; 600; 3] /\ dense r.
Proof.
  intros Hrun.
  destruct (main_done_inv _ _ _ Hrun) as (a0 & _ & _ & Hbase & _ & _ & _ & -> & _).
  destruct (base_is_valid _ _ Hbase) as (_ & _ & _ & Hch & _).
  exists a0, (resized a0). split; [apply Hbase|]. split; [reflexivity|]. split.
  - unfold shape. simpl. now rewrite Hch.
  - apply length_tabulate.
Qed.

(** ** The discarded height (lines 13 and 14) *)

(** Whatever line 13 left in [newHeight], lines 14 to 21 do the same. *)
Lemma after_line_13_rebind (i : value) (x y : float) (w : world) :
  after_line_13 i y w = rebind_newHeight y (after_line_13 i x w).
Proof.
  unfold after_line_13, mbind, M_bind.
  destruct (resize_to_width i 600 w) as [i1 w1| |]; try reflexivity.
  destruct (load "squirrel.jpg" w1) as [ov w2| |]; try reflexivity.
  now destruct (show i1 w2).
Qed.

(** The conversion of a dimension is the kernel's conversion of a
    machine integer. *)
Lemma float_of_Z_nonneg (z : Z) :
  0 <= z -> float_of_Z z = PrimFloat.of_uint63 (Uint63.of_Z z).
Proof.
  intros Hz. unfold float_of_Z.
  destruct (z <? 0) eqn:E; [apply Z.ltb_lt in E; lia | reflexivity].
Qed.

(** C2.  On a run that ends, [newHeight] holds
    original_height * (600 / original_width) in Python's arithmetic: the
    binary64 quotient of 600 by the width, times the height, both
    dimensions being exactly representable.  Nothing uses it: the resize
    call is [cv2.resize(input, (600, original_height))], its result has
    the original height and width 600, and lines 14 to 21 end in the same
    world with the same [input] and [overlay] whatever value stands in
    for [newHeight]. *)
Theorem newHeight_computed_and_unused (g : namespace) (w w' : world) :
  main w = Done g w' ->
  exists a0,
    decoded (files w) "example.jpg" = PyArray a0 /\
    0 < rows a0 <= 2 ^ 20 /\ 0 < cols a0 <= 2 ^ 20 /\
    newHeight g
    = PrimFloat.mul
        (PrimFloat.of_uint63 (Uint63.of_Z (rows a0)))
        (PrimFloat.div (PrimFloat.of_uint63 (Uint63.of_Z 600))
                       (PrimFloat.of_uint63 (Uint63.of_Z (cols a0)))) /\
    (forall u, cv2.resize interpolate (PyArray a0) (600, rows a0) u
               = Done (input g) u) /\
    (exists r, input g = PyArray r /\ rows r = rows a0 /\ cols r = 600) /\
    forall x : float,
      after_line_13 (PyArray a0) x (log (EvImread "example.jpg") w)
      = Done {| input := input g; newHeight := x; overlay := overlay g |} w'.
Proof.
  intros Hrun.
  destruct (main_done_inv _ _ _ Hrun) as (a0 & k & ks & Hbase & Hsq & Hd & Hk & -> & ->).
  destruct (base_is_valid _ _ Hbase) as (Ha & Hrows & Hcols & _).
  exists a0. split; [apply Hbase|]. split; [exact Hrows|]. split; [exact Hcols|].
  split; [|split; [|split]].
  - simpl. unfold aspect_height, mul_int_float.
    now rewrite !float_of_Z_nonneg by lia.
  - intros u. apply resize_run; [exact Ha | lia | lia].
  - now exists (resized a0).
  - intros x. rewrite (after_line_13_rebind _ (aspect_height a0) x).
    rewrite (main_from_line_14 a0) in Hrun by exact Hbase.
    now rewrite Hrun.
Qed.

(** ** The loader (lines 12 and 17) *)

(** A load that returns an array returns a valid one: it has rows and
    columns within the limits, three channels, and all its samples. *)
Lemma load_returns_valid (path : string) (a : ndarray) (w w1 : world) :
  load path w = Done (PyArray a) w1 ->
  0 < rows a <= 2 ^ 20 /\ 0 < cols a <= 2 ^ 20 /\ channels a = 3 /\ dense a.
Proof.
  intros Hload. apply load_Done_inv in Hload as (Hr & Hv & _).
  now apply (decoded_valid (files w) path).
Qed.

(** C3, as the code has it.  For a path that does not resolve to a
    decodable image (no such file, a header that no codec reads, pixels
    that cannot be decoded, or a header that announces a size outside the
    loader's limits) the loading operation never returns a buffer, empty
    or otherwise.  It raises [cv2.error] exactly when a header was read
    and announces a size outside the limits; in every other case it
    raises nothing and returns [None].  Either way its only effect is the
    read. *)
Theorem load_undecodable (path : string) (w : world) :
  files w !! path = None \/
  (exists bs, files w !! path = Some bs /\
     (read_header bs = None \/ read_data bs = None \/
      exists h, read_header bs = Some h /\ cv2.size_ok h = false)) ->
  (load path w = Raised cv2_error (log (EvImread path) w) /\
   exists bs h, files w !! path = Some bs /\ read_header bs = Some h /\
                cv2.size_ok h = false) \/
  (load path w = Done PyNone (log (EvImread path) w) /\
   forall bs h, files w !! path = Some bs -> read_header bs = Some h ->
                cv2.size_ok h = true).
Proof.
  intros Hbad. unfold load, cv2.imread, cv2.refused, cv2.decoded.
  destruct (files w !! path) as [bs|] eqn:Hfile.
  - destruct (read_header bs) as [h|] eqn:Hh.
    + destruct (cv2.size_ok h) eqn:Hok; simpl.
      * right. destruct Hbad as [Hnone | (bs' & [= <-] & [Hno | [Hno | (h' & Hh' & Hbig)]])];
          try congruence.
        rewrite Hno. split; [reflexivity|]. intros bs' h' [= <-]. congruence.
      * left. split; [reflexivity|]. now exists bs, h.
    + right. split; [reflexivity|]. intros bs' h' [= <-]. congruence.
  - right. split; [reflexivity|]. discriminate.
Qed.

(** C8, as the code has it.  Loading a valid image file whose encoded
    content has dimensions (H, W, 3) within the loader's limits (at most
    2^20 rows and columns and 2^30 pixels) yields a dense pixel buffer of
    dimensions (H, W, 3), or of dimensions (W, H, 3) when the file's
    orientation tag is one of 5 to 8. *)
Theorem load_keeps_dimensions
    (path : string) (bs : list Byte.byte) (h : header)
    (px : Z -> Z -> Z -> Z) (H W : Z) (w : world) :
  files w !! path = Some bs ->
  read_header bs = Some h -> read_data bs = Some px ->
  hdr_height h = H -> hdr_width h = W ->
  0 < H <= 2 ^ 20 -> 0 < W <= 2 ^ 20 -> H * W <= 2 ^ 30 ->
  exists b,
    load path w = Done (PyArray b) (log (EvImread path) w) /\
    Z.of_nat (length (samples b)) = H * W * 3 /\
    shape b = if cv2.transposes (hdr_orientation h) then [W; H; 3] else [H; W; 3].
Proof.
  intros Hfile Hh Hpx <- <- HH HW HHW.
  assert (Hok : cv2.size_ok h = true) by (apply size_ok_intro; lia).
  assert (Hr : refused (files w) path = false).
  { unfold cv2.refused. now rewrite Hfile, Hh, Hok. }
  set (m := {| rows := hdr_height h; cols := hdr_width h; channels := 3;
               samples := tabulate (hdr_height h) (hdr_width h) 3 px |}).
  set (b := cv2.exif_transform (hdr_orientation h) m).
  destruct (exif_transform_dims (hdr_orientation h) m) as (Hrows & Hcols & Hch).
  fold b in Hrows, Hcols, Hch. simpl in Hrows, Hcols, Hch.
  assert (Hb : is_empty b = false).
  { apply is_empty_false. rewrite Hrows, Hcols.
    destruct (cv2.transposes _); lia. }
  assert (Hdec : decoded (files w) path = PyArray b).
  { unfold cv2.decoded. rewrite Hfile, Hh, Hpx. cbv zeta. fold m. fold b.
    now rewrite Hb. }
  exists b. split; [|split].
  - rewrite load_run by exact Hr. now rewrite Hdec.
  - pose proof (exif_transform_dense (hdr_orientation h) m (length_tabulate _ _ _ _)) as Hd.
    fold b in Hd. unfold dense in Hd. rewrite Hd, Hrows, Hcols, Hch.
    rewrite !Nat2Z.inj_mul.
    destruct (cv2.transposes _); rewrite !Z2Nat.id by lia; lia.
  - rewrite (shape_3 b Hch), Hrows, Hcols. now destruct (cv2.transposes _).
Qed.

(** C9.  If loading the base image gives [None], the script fails at the
    next statement, line 13, with the [AttributeError] of reading
    [input.shape]: [example.jpg] is the only file read, no window has been
    opened, and the world is the one the load left. *)
Theorem undecodable_base_fails_at_line_13 (w w1 : world) :
  load "example.jpg" w = Done PyNone w1 ->
  new_height PyNone w1 = Raised AttributeError w1 /\
  main w = Raised AttributeError w1 /\
  reads (trace w1) = reads (trace w) ++ ["example.jpg"] /\
  titles (trace w1) = titles (trace w) /\
  windows w1 = windows w.
Proof.
  intros Hload. apply load_Done_inv in Hload as (Hr & Hdec & ->).
  split; [apply new_height_None|].
  split; [now apply main_missing|].
  split; [apply reads_snoc|].
  split; [|reflexivity].
  simpl. rewrite titles_snoc. apply app_nil_r.
Qed.

(** ** The overlay (line 17) *)

(** C5.  On a run that ends, [overlay] is what the loader returned for
    [squirrel.jpg], as it returned it; the working directory is as it was;
    the only image shown is [input], in the one window "Resized"; and
    another world with the same base image, display, keys, windows and
    trace, whatever it has under [squirrel.jpg], either has the load of
    line 17 raise or ends with the same [input], the same [newHeight] and
    the same display, keys, windows and trace. *)
Theorem overlay_loaded_and_left_alone (g : namespace) (w w' : world) :
  main w = Done g w' ->
  overlay g = decoded (files w) "squirrel.jpg" /\
  files w' = files w /\
  (exists r k,
      input g = PyArray r /\
      trace w' = trace w ++ [EvImread "example.jpg"; EvImread "squirrel.jpg";
                             EvImshow "Resized" r; EvKey k] /\
      windows w' = <["Resized" := r]> (windows w)) /\
  (forall w2,
      files w2 !! "example.jpg" = files w !! "example.jpg" ->
      erase w2 = erase w ->
      (refused (files w2) "squirrel.jpg" = true /\
       main w2 = Raised cv2_error (after_loads w2)) \/
      exists g2 w2',
        main w2 = Done g2 w2' /\
        input g2 = input g /\ newHeight g2 = newHeight g /\
        overlay g2 = decoded (files w2) "squirrel.jpg" /\
        erase w2' = erase w').
Proof.
  intros Hrun.
  destruct (main_done_inv _ _ _ Hrun) as (a0 & k & ks & Hbase & Hsq & Hd & Hk & -> & ->).
  split; [reflexivity|]. split; [reflexivity|]. split.
  - exists (resized a0), k. split; [reflexivity|]. split; [apply trace_done|reflexivity].
  - intros w2 Hf He. now apply (main_done_same_base a0 k ks w w2).
Qed.

(** ** The display (lines 20 and 21) *)

(** C6.  Given a well-formed pixel buffer and a display, the display step
    puts the buffer in the window titled "Resized" and returns only once a
    key event has come: with no key to come it never returns and no
    statement placed after it runs; with a key to come it returns having
    taken exactly that key, after the image was shown. *)
Theorem show_returns_after_key (a : ndarray) (w : world) :
  is_empty a = false -> display w = true ->
  windows (shown "Resized" a w) !! "Resized" = Some a /\
  (keys w = [] ->
     show (PyArray a) w = Blocked (shown "Resized" a w) /\
     forall (B : Type) (k : unit -> M B),
       (show (PyArray a) ≫= k) w = Blocked (shown "Resized" a w)) /\
  (forall c ks, keys w = c :: ks ->
     show (PyArray a) w = Done tt (keyed c ks (shown "Resized" a w))) /\
  (forall u w', show (PyArray a) w = Done u w' ->
     exists c ks, keys w = c :: ks /\ keys w' = ks /\
       trace w' = trace w ++ [EvImshow "Resized" a; EvKey c]).
Proof.
  intros Ha Hd. split; [apply lookup_insert_eq|]. split; [|split].
  - intros Hk. pose proof (show_blocked a w Ha Hd Hk) as Hb.
    split; [exact Hb|]. intros B k. now apply bind_Blocked.
  - intros c ks Hk. now apply show_key.
  - intros u w' Hrun. destruct (keys w) as [|c ks] eqn:Hk.
    + rewrite show_blocked in Hrun by assumption. discriminate.
    + rewrite (show_key a c ks) in Hrun by assumption.
      injection Hrun as _ <-. exists c, ks. repeat split.
      simpl. now rewrite <- app_assoc.
Qed.

(** C10.  On a run that ends, the one window the script has shown is
    titled exactly "Resized", and it holds the resized base image. *)
Theorem window_title_is_Resized (g : namespace) (w w' : world) :
  main w = Done g w' ->
  titles (trace w') = titles (trace w) ++ ["Resized"] /\
  exists r, input g = PyArray r /\ windows w' = <["Resized" := r]> (windows w).
Proof.
  intros Hrun.
  destruct (main_done_inv _ _ _ Hrun) as (a0 & k & ks & Hbase & Hsq & Hd & Hk & -> & ->).
  split.
  - rewrite trace_done. unfold titles. rewrite omap_app. reflexivity.
  - now exists (resized a0).
Qed.

(** ** What the script reads *)

(** C7.  Two worlds with the same content under [example.jpg] and under
    [squirrel.jpg] (and the same display, keys, windows and trace) give
    the same run, whatever else their working directories hold and
    whatever their command lines and environments are; the script reads
    [example.jpg], then [squirrel.jpg], and no other file. *)
Theorem inputs_are_the_two_fixed_paths (w1 w2 : world) :
  alike w1 w2 ->
  observe (main w1) = observe (main w2) /\
  (forall g w', main w1 = Done g w' ->
     reads (trace w') = reads (trace w1) ++ ["example.jpg"; "squirrel.jpg"]) /\
  exists ps,
    reads (trace (final (main w1))) = reads (trace w1) ++ ps /\
    (ps = ["example.jpg"] \/ ps = ["example.jpg"; "squirrel.jpg"]).
Proof.
  intros Halike. split; [now apply main_alike|]. split.
  - intros g w' Hrun.
    destruct (main_done_inv _ _ _ Hrun) as (a0 & k & ks & _ & _ & _ & _ & _ & ->).
    rewrite trace_done. unfold reads. now rewrite omap_app.
  - main_cases w1; rewrite Hm; simpl.
    + exists ["example.jpg"]. split; [apply reads_snoc | now left].
    + exists ["example.jpg"]. split; [apply reads_snoc | now left].
    + exists ["example.jpg"; "squirrel.jpg"]. split; [|now right].
      rewrite !reads_snoc. now rewrite <- app_assoc.
    + exists ["example.jpg"; "squirrel.jpg"]. split; [|now right].
      rewrite !reads_snoc. now rewrite <- app_assoc.
    + exists ["example.jpg"; "squirrel.jpg"]. split; [|now right].
      rewrite !reads_snoc, !app_nil_r. now rewrite <- app_assoc.
    + exists ["example.jpg"; "squirrel.jpg"]. split; [|now right].
      rewrite !reads_snoc, !app_nil_r. now rewrite <- app_assoc.
Qed.

End Run.

(** ** The statements above on the sample data *)

Section Examples.

Import Sample.

Local Abbreviation main := (main raw_header raw_data nearest).
Local Abbreviation load := (load raw_header raw_data).
Local Abbreviation decoded := (cv2.decoded raw_header raw_data).

Lemma small_file_decodes : decoded (files both) "example.jpg" = PyArray small.
Proof. vm_compute. reflexivity. Qed.

(** The run on the 2 by 4 image: [newHeight = 2 * (600 / 4) = 300.0],
    and 2 rows of 600 columns in [input] and in the window. *)
Lemma main_both : main both = Done both_globals both_final.
Proof. vm_compute. reflexivity. Qed.

(** A 400 by 800 by 3 buffer resized to width 600 is 400 by 600 by 3. *)
Lemma resize_keeps_height_frame :
  exists r,
    resize_to_width nearest (PyArray frame) 600 bare = Done (PyArray r) bare /\
    shape r = [400; 600; 3] /\
    Z.of_nat (length (samples r)) = 400 * 600 * 3.
Proof.
  apply (resize_keeps_height nearest frame 400 800 600 bare); [reflexivity | lia ..].
Defined.

(** C1 as stated fails: a target width of 2^31 does not fit the C int of
    the binding, and the resize of the 400 by 800 by 3 buffer raises; so
    it does at width 0, and so does the resize of a buffer of no rows. *)
Lemma resize_refuses_width_2_31 :
  shape frame = [400; 800; 3] /\
  resize_to_width nearest (PyArray frame) (2 ^ 31) bare = Raised cv2_error bare /\
  resize_to_width nearest (PyArray frame) 0 bare = Raised cv2_error bare /\
  shape hollow = [0; 800; 3] /\
  resize_to_width nearest (PyArray hollow) 600 bare = Raised cv2_error bare.
Proof. repeat split; reflexivity. Qed.

(** Width 0 is refused for the small image. *)
Lemma resize_rejects_width_0 :
  resize_to_width nearest (PyArray small) 0 bare = Raised cv2_error bare /\
  forall height,
    cv2.resize nearest (PyArray small) (0, height) bare = Raised cv2_error bare.
Proof.
  apply (resize_rejects_bad_dimensions nearest small 0 bare). left. lia.
Defined.

(** The 2 by 4 base image gives [newHeight = 2 * (600 / 4) = 300.0], and
    the resize call asks for 2 rows all the same. *)
Lemma newHeight_unused_small :
  exists a0,
    decoded (files both) "example.jpg" = PyArray a0 /\
    0 < rows a0 <= 2 ^ 20 /\ 0 < cols a0 <= 2 ^ 20 /\
    300%float
    = PrimFloat.mul
        (PrimFloat.of_uint63 (Uint63.of_Z (rows a0)))
        (PrimFloat.div (PrimFloat.of_uint63 (Uint63.of_Z 600))
                       (PrimFloat.of_uint63 (Uint63.of_Z (cols a0)))) /\
    (forall u, cv2.resize nearest (PyArray a0) (600, rows a0) u
               = Done (PyArray (resized nearest small)) u) /\
    (exists r, PyArray (resized nearest small) = PyArray r /\
               rows r = rows a0 /\ cols r = 600) /\
    forall x : float,
      after_line_13 raw_header raw_data nearest (PyArray a0) x
        (log (EvImread "example.jpg") both)
      = Done {| input := PyArray (resized nearest small); newHeight := x;
                overlay := PyArray small |} both_final.
Proof.
  apply (newHeight_computed_and_unused raw_header raw_data nearest
           both_globals both both_final).
  vm_compute. reflexivity.
Defined.

(** C3 as stated fails: in an empty working directory, and on a file that
    is no image, the loading operation returns [None] and raises
    nothing. *)
Lemma load_missing_does_not_fail :
  files bare !! "example.jpg" = None /\
  load "example.jpg" bare = Done PyNone (log (EvImread "example.jpg") bare) /\
  load "example.jpg" corrupt = Done PyNone (log (EvImread "example.jpg") corrupt) /\
  ~ (exists e w', load "example.jpg" bare = Raised e w').
Proof.
  split; [reflexivity|]. split; [reflexivity|]. split; [reflexivity|].
  intros (e & w' & Hraise). discriminate Hraise.
Qed.

(** The file that is no image: [None], nothing raised. *)
Lemma load_corrupt_returns_None :
  (load "example.jpg" corrupt
   = Raised cv2_error (log (EvImread "example.jpg") corrupt) /\
   exists bs h, files corrupt !! "example.jpg" = Some bs /\
                raw_header bs = Some h /\ cv2.size_ok h = false) \/
  (load "example.jpg" corrupt
   = Done PyNone (log (EvImread "example.jpg") corrupt) /\
   forall bs h, files corrupt !! "example.jpg" = Some bs ->
                raw_header bs = Some h -> cv2.size_ok h = true).
Proof.
  apply (load_undecodable raw_header raw_data "example.jpg" corrupt).
  right. exists [Byte.x41; Byte.x42]. split; [reflexivity|]. left. reflexivity.
Defined.

(** The header that announces 2^21 columns: [cv2.error]. *)
Lemma load_wide_raises :
  load "squirrel.jpg" wide_overlay
  = Raised cv2_error (log (EvImread "squirrel.jpg") wide_overlay).
Proof. reflexivity. Qed.

(** C8 as stated fails: the file tagged as turned encodes 2 rows of 4
    columns, and loads as 4 rows of 2 columns. *)
Lemma load_turned_swaps_dimensions :
  files turned !! "example.jpg" = Some turned_file /\
  raw_header turned_file
  = Some {| hdr_height := 2; hdr_width := 4; hdr_orientation := 6 |} /\
  exists b,
    load "example.jpg" turned = Done (PyArray b) (log (EvImread "example.jpg") turned) /\
    shape b = [4; 2; 3].
Proof.
  split; [reflexivity|]. split; [reflexivity|].
  eexists. split; [vm_compute; reflexivity | reflexivity].
Qed.

Lemma load_keeps_dimensions_small :
  exists b,
    load "example.jpg" both = Done (PyArray b) (log (EvImread "example.jpg") both) /\
    Z.of_nat (length (samples b)) = 2 * 4 * 3 /\
    shape b = [2; 4; 3].
Proof.
  apply (load_keeps_dimensions raw_header raw_data "example.jpg" small_file
           {| hdr_height := 2; hdr_width := 4; hdr_orientation := 1 |}
           (fun y x c => byte_val (nth (Z.to_nat ((y * 4 + x) * 3 + c))
                                       (drop 7 small_file) Byte.x00))
           2 4 both);
    [reflexivity | reflexivity | reflexivity | reflexivity | reflexivity | lia ..].
Defined.

Lemma bare_fails_at_line_13 :
  new_height PyNone (log (EvImread "example.jpg") bare)
    = Raised AttributeError (log (EvImread "example.jpg") bare) /\
  main bare = Raised AttributeError (log (EvImread "example.jpg") bare) /\
  reads (trace (log (EvImread "example.jpg") bare)) = reads (trace bare) ++ ["example.jpg"] /\
  titles (trace (log (EvImread "example.jpg") bare)) = titles (trace bare) /\
  windows (log (EvImread "example.jpg") bare) = windows bare.
Proof.
  apply (undecodable_base_fails_at_line_13 raw_header raw_data nearest bare).
  reflexivity.
Defined.

Lemma overlay_left_alone_both :
  overlay both_globals = decoded (files both) "squirrel.jpg" /\
  files both_final = files both /\
  (exists r k,
      input both_globals = PyArray r /\
      trace both_final = trace both ++ [EvImread "example.jpg"; EvImread "squirrel.jpg";
                                        EvImshow "Resized" r; EvKey k] /\
      windows both_final = <["Resized" := r]> (windows both)) /\
  (forall w2,
      files w2 !! "example.jpg" = files both !! "example.jpg" ->
      erase w2 = erase both ->
      (cv2.refused raw_header (files w2) "squirrel.jpg" = true /\
       main w2 = Raised cv2_error (after_loads w2)) \/
      exists g2 w2',
        main w2 = Done g2 w2' /\
        input g2 = input both_globals /\ newHeight g2 = newHeight both_globals /\
        overlay g2 = decoded (files w2) "squirrel.jpg" /\
        erase w2' = erase both_final).
Proof.
  apply (overlay_loaded_and_left_alone raw_header raw_data nearest
           both_globals both both_final).
  vm_compute. reflexivity.
Defined.

Lemma show_small_returns_after_key :
  windows (shown "Resized" small both) !! "Resized" = Some small /\
  (keys both = [] ->
     show (PyArray small) both = Blocked (shown "Resized" small both) /\
     forall (B : Type) (k : unit -> M B),
       (show (PyArray small) ≫= k) both = Blocked (shown "Resized" small both)) /\
  (forall c ks, keys both = c :: ks ->
     show (PyArray small) both = Done tt (keyed c ks (shown "Resized" small both))) /\
  (forall u w', show (PyArray small) both = Done u w' ->
     exists c ks, keys both = c :: ks /\ keys w' = ks /\
       trace w' = trace both ++ [EvImshow "Resized" small; EvKey c]).
Proof.
  apply (show_returns_after_key small both); reflexivity.
Defined.

Lemma window_title_both :
  titles (trace both_final) = titles (trace both) ++ ["Resized"] /\
  exists r, input both_globals = PyArray r /\
            windows both_final = <["Resized" := r]> (windows both).
Proof.
  apply (window_title_is_Resized raw_header raw_data nearest
           both_globals both both_final).
  vm_compute. reflexivity.
Defined.

(** The crowded directory, the extra arguments and the environment
    variable make no difference. *)
Lemma both_and_crowded_run_alike :
  observe (main both) = observe (main crowded) /\
  (forall g w', main both = Done g w' ->
     reads (trace w') = reads (trace both) ++ ["example.jpg"; "squirrel.jpg"]) /\
  exists ps,
    reads (trace (final (main both))) = reads (trace both) ++ ps /\
    (ps = ["example.jpg"] \/ ps = ["example.jpg"; "squirrel.jpg"]).
Proof.
  apply (inputs_are_the_two_fixed_paths raw_header raw_data nearest both crowded).
  split; [reflexivity|]. split; reflexivity.
Defined.

End Examples.

(** ** Every way a run can go *)

Section Outcomes.

Variable read_header : list Byte.byte -> option header.
Variable read_data : list Byte.byte -> option (Z -> Z -> Z -> Z).
Variable interpolate : ndarray -> Z -> Z -> Z -> Z -> Z -> Z.

Local Abbreviation decoded := (cv2.decoded read_header read_data).
Local Abbreviation refused := (cv2.refused read_header).
Local Abbreviation resized := (resized interpolate).
Local Abbreviation main := (main read_header read_data interpolate).
Local Abbreviation globals_of := (globals_of read_header read_data interpolate).
Local Abbreviation base_is := (base_is read_header read_data).
Local Abbreviation main_cases := (main_cases read_header read_data interpolate).

Ltac main_cases w :=
  let a0 := fresh "a0" in
  let k := fresh "k" in
  let ks := fresh "ks" in
  let Hm := fresh "Hm" in
  destruct (main_cases w)
    as [[?Hr Hm] | [(?Hr & ?Hdec & Hm) | (a0 & ?Hbase &
         [[?Hsq Hm] | [?Hsq [[?Hd Hm] | [(?Hd & ?Hk & Hm) | (k & ks & ?Hd & ?Hk & Hm)]]]])]].

(** X1.  Once its imports have succeeded, the script can stop with an
    exception in four ways only: [cv2.error] from the [imread] of line 12,
    when the header of [example.jpg] announces a size outside the limits;
    [AttributeError] at line 13, when [example.jpg] gave [None]; and, with
    the base image decoded and both files read, [cv2.error] from the
    [imread] of line 17, when [squirrel.jpg] is refused in its turn, or
    from line 20, when there is no display.  It never divides by zero,
    and the resize of line 14 never fails. *)
Theorem main_raises_in_four_ways (e : exn) (w w' : world) :
  main w = Raised e w' ->
  (e = cv2_error /\
   refused (files w) "example.jpg" = true /\
   w' = log (EvImread "example.jpg") w) \/
  (e = AttributeError /\
   refused (files w) "example.jpg" = false /\
   decoded (files w) "example.jpg" = PyNone /\
   w' = log (EvImread "example.jpg") w) \/
  (e = cv2_error /\
   (exists a0, base_is a0 w) /\
   w' = after_loads w /\
   (refused (files w) "squirrel.jpg" = true \/
    (refused (files w) "squirrel.jpg" = false /\ display w = false))).
Proof.
  intros Hrun.
  main_cases w; rewrite Hm in Hrun; try discriminate; injection Hrun as <- <-.
  - left. auto.
  - right. left. auto.
  - right. right. split; [reflexivity|]. split; [now exists a0|]. auto.
  - right. right. split; [reflexivity|]. split; [now exists a0|]. auto.
Qed.

(** X2.  The script runs to its end exactly when [imread] decodes the
    base image, does not refuse [squirrel.jpg], there is a display and a
    key press comes; it then ends with the resized base image in [input]
    and in the window, and one key taken. *)
Theorem main_ends_iff (g : namespace) (w w' : world) :
  main w = Done g w' <->
  exists a0 k ks,
    base_is a0 w /\
    refused (files w) "squirrel.jpg" = false /\
    display w = true /\ keys w = k :: ks /\
    g = globals_of a0 w /\
    w' = keyed k ks (shown "Resized" (resized a0) (after_loads w)).
Proof.
  split.
  - apply main_done_inv.
  - intros (a0 & k & ks & Hbase & Hsq & Hd & Hk & -> & ->). now apply main_done.
Qed.

(** X3.  The script hangs in [cv2.waitKey(0)] exactly when [imread]
    decodes the base image, does not refuse [squirrel.jpg], there is a
    display and no key press ever comes; it hangs with both files read
    and the resized image already in the window. *)
Theorem main_hangs_iff (w w' : world) :
  main w = Blocked w' <->
  exists a0,
    base_is a0 w /\
    refused (files w) "squirrel.jpg" = false /\
    display w = true /\ keys w = [] /\
    w' = shown "Resized" (resized a0) (after_loads w).
Proof.
  split.
  - intros Hrun.
    main_cases w; rewrite Hm in Hrun; try discriminate.
    injection Hrun as <-. now exists a0.
  - intros (a0 & Hbase & Hsq & Hd & Hk & ->). now apply main_blocked.
Qed.

(** X4.  A [squirrel.jpg] that is missing, or that [imread] can make
    nothing of without refusing it, does not stop the script: unlike the
    base image, the overlay is never looked into, so the run ends as
    usual with [overlay = None]. *)
Theorem missing_overlay_is_tolerated (a0 : ndarray) (k : Z) (ks : list Z) (w : world) :
  base_is a0 w ->
  display w = true -> keys w = k :: ks ->
  refused (files w) "squirrel.jpg" = false ->
  decoded (files w) "squirrel.jpg" = PyNone ->
  exists w',
    main w = Done {| input := PyArray (resized a0);
                     newHeight := aspect_height a0;
                     overlay := PyNone |} w' /\
    windows w' !! "Resized" = Some (resized a0) /\
    keys w' = ks.
Proof.
  intros Hbase Hd Hk Hsq Hnone. eexists. split.
  - rewrite (main_done read_header read_data interpolate a0 k ks) by assumption.
    unfold globals_of. now rewrite Hnone.
  - split; [apply lookup_insert_eq | reflexivity].
Qed.

(** X5.  Any key ends the script and which key it was makes no
    difference: the value of [cv2.waitKey(0)] is dropped, so another key
    code in the same place gives the same variables, windows and files,
    and the same keys left. *)
Theorem key_code_is_ignored (k1 k2 : Z) (ks : list Z) (g : namespace) (w w1 : world) :
  main (set_keys (k1 :: ks) w) = Done g w1 ->
  exists w2,
    main (set_keys (k2 :: ks) w) = Done g w2 /\
    windows w2 = windows w1 /\ files w2 = files w1 /\
    keys w1 = ks /\ keys w2 = ks.
Proof.
  intros Hrun.
  apply main_done_inv in Hrun as (a0 & k & ks' & Hbase & Hsq & Hd & Hk & -> & ->).
  simpl in Hk. injection Hk as <- <-.
  exists (keyed k2 ks (shown "Resized" (resized a0) (after_loads (set_keys (k2 :: ks) w)))).
  split.
  - now rewrite (main_done read_header read_data interpolate a0 k2 ks).
  - repeat split.
Qed.

(** X6.  However a run goes, the script writes no file and leaves the
    display, the command line and the environment as they were; it only
    adds to the trace, and takes at most the first pending key. *)
Theorem main_leaves_the_rest_alone (w : world) :
  files (final (main w)) = files w /\
  display (final (main w)) = display w /\
  argv (final (main w)) = argv w /\
  environ (final (main w)) = environ w /\
  (exists t, trace (final (main w)) = trace w ++ t) /\
  (keys (final (main w)) = keys w \/ keys (final (main w)) = tail (keys w)).
Proof.
  main_cases w; rewrite Hm; simpl; repeat (split; [reflexivity|]).
  - split; [eexists; reflexivity | now left].
  - split; [eexists; reflexivity | now left].
  - split; [|now left]. eexists. now rewrite <- app_assoc.
  - split; [|now left]. eexists. now rewrite <- app_assoc.
  - split; [|now left]. eexists. now rewrite <- !app_assoc.
  - split; [|right; now rewrite Hk]. eexists. now rewrite <- !app_assoc.
Qed.

(** X7.  Running the script again in the world it left, with a further
    key to come, ends with the same variables and the same windows: the
    files are as they were and the window "Resized" gets the same image
    again. *)
Theorem main_again (g : namespace) (w w' : world) (k : Z) (ks : list Z) :
  main w = Done g w' -> keys w' = k :: ks ->
  exists w'',
    main w' = Done g w'' /\ windows w'' = windows w' /\ keys w'' = ks.
Proof.
  intros Hrun Hk'.
  apply main_done_inv in Hrun as (a0 & k0 & ks0 & Hbase & Hsq & Hd & Hk & -> & ->).
  eexists. split.
  - now rewrite (main_done read_header read_data interpolate a0 k ks).
  - split; [|reflexivity]. simpl. apply insert_insert_eq.
Qed.

(** ** Lines 13 and 20 on their own *)

(** X8.  Line 13 raises exactly in two cases, and touches nothing when it
    does: [AttributeError] on [None], [ZeroDivisionError] on an array
    with no columns. *)
Theorem new_height_raises_iff (img : value) (e : exn) (w w' : world) :
  new_height img w = Raised e w' <->
  w' = w /\
  ((img = PyNone /\ e = AttributeError) \/
   (exists a, img = PyArray a /\ cols a = 0 /\ e = ZeroDivisionError)).
Proof.
  destruct img as [|a].
  - rewrite new_height_None. split.
    + intros [= <- <-]. split; [reflexivity|]. now left.
    + intros [-> [[_ ->] | (a & Ha & _)]]; [reflexivity | discriminate].
  - unfold new_height.
    rewrite (bind_Done _ _ _ _ _ (shape_item_0 a w)).
    rewrite (bind_Done _ _ _ _ _ (shape_item_1 a w)).
    unfold truediv.
    destruct (cols a =? 0) eqn:Hz.
    + apply Z.eqb_eq in Hz. unfold mbind, M_bind, raise. split.
      * intros [= <- <-]. split; [reflexivity|]. right. now exists a.
      * intros [-> [[Hn _] | (b & _ & _ & ->)]]; [discriminate | reflexivity].
    + apply Z.eqb_neq in Hz. unfold mbind, M_bind, mret, M_ret. split.
      * discriminate.
      * intros [_ [[Hn _] | (b & [= <-] & Hc & _)]]; [discriminate | contradiction].
Qed.

(** X10.  When the display step fails it fails in [cv2.imshow], with
    [cv2.error], before any window is touched or key taken: the world is
    as it was.  It fails on [None], on an empty array and without a
    display, and in no other case. *)
Theorem show_fails_untouched (img : value) (e : exn) (w w' : world) :
  show img w = Raised e w' <->
  e = cv2_error /\ w' = w /\
  (img = PyNone \/
   exists a, img = PyArray a /\ (is_empty a = true \/ display w = false)).
Proof.
  destruct img as [|a].
  - split.
    + intros [= <- <-]. repeat split. now left.
    + intros (-> & -> & _). reflexivity.
  - destruct (is_empty a) eqn:Ha.
    + assert (Hs : show (PyArray a) w = Raised cv2_error w).
      { unfold show. apply bind_Raised. unfold cv2.imshow. now rewrite Ha. }
      rewrite Hs. split.
      * intros [= <- <-]. repeat split. right. exists a. auto.
      * intros (-> & -> & _). reflexivity.
    + destruct (display w) eqn:Hd.
      * split.
        -- intros Hrun. destruct (keys w) as [|c ks] eqn:Hk.
           ++ rewrite show_blocked in Hrun by assumption. discriminate.
           ++ rewrite (show_key a c ks) in Hrun by assumption. discriminate.
        -- intros (_ & _ & [Hn | (b & [= <-] & [Hb | Hb])]); congruence.
      * rewrite show_no_display by exact Hd. split.
        -- intros [= <- <-]. repeat split. right. exists a. auto.
        -- intros (-> & -> & _). reflexivity.
Qed.

End Outcomes.

Section OutcomeExamples.

Import Sample.

Local Abbreviation main := (main raw_header raw_data nearest).
Local Abbreviation decoded := (cv2.decoded raw_header raw_data).
Local Abbreviation refused := (cv2.refused raw_header).

(** With an overlay that [imread] refuses, the run stops at line 17, both
    files read. *)
Lemma wide_overlay_raises_cv2_error :
  (cv2_error = cv2_error /\
   refused (files wide_overlay) "example.jpg" = true /\
   after_loads wide_overlay = log (EvImread "example.jpg") wide_overlay) \/
  (cv2_error = AttributeError /\
   refused (files wide_overlay) "example.jpg" = false /\
   decoded (files wide_overlay) "example.jpg" = PyNone /\
   after_loads wide_overlay = log (EvImread "example.jpg") wide_overlay) \/
  (cv2_error = cv2_error /\
   (exists a0, base_is raw_header raw_data a0 wide_overlay) /\
   after_loads wide_overlay = after_loads wide_overlay /\
   (refused (files wide_overlay) "squirrel.jpg" = true \/
    (refused (files wide_overlay) "squirrel.jpg" = false /\
     display wide_overlay = false))).
Proof.
  apply (main_raises_in_four_ways raw_header raw_data nearest
           cv2_error wide_overlay (after_loads wide_overlay)).
  vm_compute. reflexivity.
Defined.

Lemma no_overlay_still_ends :
  exists w',
    main no_overlay = Done {| input := PyArray (resized nearest small);
                              newHeight := aspect_height small;
                              overlay := PyNone |} w' /\
    windows w' !! "Resized" = Some (resized nearest small) /\
    keys w' = [].
Proof.
  apply (missing_overlay_is_tolerated raw_header raw_data nearest small 32 [] no_overlay);
    [split | ..]; vm_compute; reflexivity.
Defined.

Lemma escape_is_as_good_as_space :
  exists w2,
    main (set_keys [27] both) = Done both_globals w2 /\
    windows w2 = windows both_final /\ files w2 = files both_final /\
    keys both_final = [] /\ keys w2 = [].
Proof.
  apply (key_code_is_ignored raw_header raw_data nearest 32 27 [] both_globals both both_final).
  vm_compute. reflexivity.
Defined.

Lemma two_keys_run_twice :
  exists w'',
    main (keyed 32 [27] (shown "Resized" (resized nearest small) (after_loads two_keys)))
      = Done both_globals w'' /\
    windows w'' = windows (keyed 32 [27] (shown "Resized" (resized nearest small)
                                            (after_loads two_keys))) /\
    keys w'' = [].
Proof.
  apply (main_again raw_header raw_data nearest both_globals two_keys _ 27 []);
    vm_compute; reflexivity.
Defined.

End OutcomeExamples.
